(** * WeTextProcessing: the JNI binding [wetext_jni.cc]

    The binding exposes five operations of the native text-normalization
    engine to Java: create, destroy, normalize, tag and verbalize.  It is
    embedded here as programs of a small state-and-failure monad over a
    world made of the live UTF buffers of the JVM, the state of the native
    engine and the trace of the calls made.  The engine itself (declared in
    [processor/wetext_processor_c_api.h]) is an interface; the part of this
    development that needs its behaviour instantiates the interface with a
    model written from the specification. *)

From Stdlib Require Import ZArith Lia String Ascii List.
From stdpp Require Import base option gmap strings.
Import ListNotations.

Local Open Scope string_scope.
Local Open Scope Z_scope.

(** ** Values that cross the boundary *)

(** A [jlong] is a 64-bit two's-complement integer. *)
Definition jlong := Z.

Definition jlong_in_range (j : jlong) : bool :=
  (- 2 ^ 63 <=? j) && (j <? 2 ^ 63).

(** [WetextProcessorHandle] is an opaque pointer: an address below 2^64,
    the null pointer being address 0. *)
Definition WetextProcessorHandle := Z.

Definition nullptr : WetextProcessorHandle := 0.

(** [reinterpret_cast<jlong>(handle)]: the same 64 bits read as signed. *)
Definition handle_to_jlong (p : WetextProcessorHandle) : jlong :=
  let u := p mod 2 ^ 64 in
  if u <? 2 ^ 63 then u else u - 2 ^ 64.

(** [reinterpret_cast<WetextProcessorHandle>(handle)]: the same 64 bits read
    as an address. *)
Definition jlong_to_handle (j : jlong) : WetextProcessorHandle :=
  j mod 2 ^ 64.

(** A [jstring] is a reference to an immutable Java string, given here by
    its modified UTF-8 bytes; [None] is the null reference. *)
Definition jstring := option string.

(** A [const char*] returned by the engine: [None] is the null pointer,
    [Some s] points to the NUL-terminated bytes [s]. *)
Definition c_result := option string.

(** A [const char*] obtained from [GetStringUTFChars] is the identifier of a
    live UTF buffer of the JVM. *)
Definition utf_chars := nat.

(** ** The C API of the engine

    The header [processor/wetext_processor_c_api.h] is not part of the
    binding; its six functions are taken as an interface over an engine
    state [E].  A function that answers [None] has crashed (a null
    dereference, a use after free, an escaping C++ exception). *)
Class WetextCApi (E : Type) := {
  wetext_create_processor :
    string -> string -> E -> option (WetextProcessorHandle * E);
  wetext_destroy_processor : WetextProcessorHandle -> E -> option E;
  wetext_normalize :
    WetextProcessorHandle -> string -> E -> option (c_result * E);
  wetext_tag :
    WetextProcessorHandle -> string -> E -> option (c_result * E);
  wetext_verbalize :
    WetextProcessorHandle -> string -> E -> option (c_result * E);
  wetext_free_string : string -> E -> option E
}.

(** ** Events and worlds *)

Inductive NativeCall :=
| CallCreateProcessor (tagger verbalizer : string)
| CallDestroyProcessor (h : WetextProcessorHandle)
| CallNormalize (h : WetextProcessorHandle) (text : string)
| CallTag (h : WetextProcessorHandle) (text : string)
| CallVerbalize (h : WetextProcessorHandle) (text : string)
| CallFreeString (s : string).

Inductive Event :=
| EvGetStringUTFChars (s : string) (buf : utf_chars)
| EvReleaseStringUTFChars (s : string) (buf : utf_chars)
| EvNewStringUTF (bytes : string)
| EvNative (c : NativeCall).

Record World (E : Type) := mkWorld {
  jvm_utf : gmap nat string;
  engine : E;
  trace : list Event
}.
Arguments mkWorld {E} _ _ _.
Arguments jvm_utf {E} _.
Arguments engine {E} _.
Arguments trace {E} _.

(** ** The monad of binding code: state over the world, [None] on a crash *)

Definition JNI (E A : Type) : Type := World E -> option (A * World E).

Definition jret {E A} (a : A) : JNI E A := fun w => Some (a, w).

Definition jbind {E A B} (m : JNI E A) (k : A -> JNI E B) : JNI E B :=
  fun w => match m w with
           | Some (a, w') => k a w'
           | None => None
           end.

Declare Scope jni_scope.
Delimit Scope jni_scope with jni.
Notation "x <- m ;; k" := (jbind m (fun x => k))
  (at level 100, m at next level, right associativity) : jni_scope.
Notation "m ;;; k" := (jbind m (fun _ => k))
  (at level 100, right associativity) : jni_scope.

Section Binding.
Context {E : Type} `{WetextCApi E}.

Local Open Scope jni_scope.

Definition log (e : Event) : JNI E unit :=
  fun w => Some (tt, mkWorld (jvm_utf w) (engine w) (trace w ++ [e])).

(** *** The JNI environment *)

(** [env->GetStringUTFChars(s, nullptr)]: a fresh buffer holding the bytes
    of [s]; a null [s] crashes the JVM.  The JVM is taken not to run out of
    memory. *)
Definition GetStringUTFChars (s : jstring) : JNI E utf_chars :=
  fun w => match s with
           | None => None
           | Some bytes =>
               let b := fresh (dom (jvm_utf w)) in
               Some (b, mkWorld (<[b := bytes]> (jvm_utf w)) (engine w)
                          (trace w ++ [EvGetStringUTFChars bytes b]))
           end.

(** [env->ReleaseStringUTFChars(s, buf)]: [buf] must be a live buffer that
    was obtained from [s]. *)
Definition ReleaseStringUTFChars (s : jstring) (buf : utf_chars)
  : JNI E unit :=
  fun w => match s, jvm_utf w !! buf with
           | Some bytes, Some held =>
               if String.eqb bytes held
               then Some (tt, mkWorld (delete buf (jvm_utf w)) (engine w)
                                (trace w ++ [EvReleaseStringUTFChars bytes buf]))
               else None
           | _, _ => None
           end.

(** [env->NewStringUTF(bytes)]: a new Java string, owned by the JVM. *)
Definition NewStringUTF (bytes : string) : JNI E jstring :=
  log (EvNewStringUTF bytes) ;;; jret (Some bytes).

(** Reading a C string out of a UTF buffer; the buffer must be live. *)
Definition read_utf (buf : utf_chars) : JNI E string :=
  fun w => match jvm_utf w !! buf with
           | Some bytes => Some (bytes, w)
           | None => None
           end.

(** *** Calls into the engine *)

Definition native {A} (c : NativeCall) (f : E -> option (A * E))
  : JNI E A :=
  fun w => match f (engine w) with
           | Some (a, e') =>
               Some (a, mkWorld (jvm_utf w) e' (trace w ++ [EvNative c]))
           | None => None
           end.

Definition native_ {A} (c : NativeCall) (f : E -> option E) (a : A)
  : JNI E A :=
  native c (fun e => match f e with
                     | Some e' => Some (a, e')
                     | None => None
                     end).

Definition call_create_processor (tagger verbalizer : utf_chars)
  : JNI E WetextProcessorHandle :=
  t <- read_utf tagger ;;
  v <- read_utf verbalizer ;;
  native (CallCreateProcessor t v) (wetext_create_processor t v).

Definition call_destroy_processor (h : WetextProcessorHandle)
  : JNI E unit :=
  native_ (CallDestroyProcessor h) (wetext_destroy_processor h) tt.

Definition call_normalize (h : WetextProcessorHandle) (text : utf_chars)
  : JNI E c_result :=
  t <- read_utf text ;;
  native (CallNormalize h t) (wetext_normalize h t).

Definition call_tag (h : WetextProcessorHandle) (text : utf_chars)
  : JNI E c_result :=
  t <- read_utf text ;;
  native (CallTag h t) (wetext_tag h t).

Definition call_verbalize (h : WetextProcessorHandle) (text : utf_chars)
  : JNI E c_result :=
  t <- read_utf text ;;
  native (CallVerbalize h t) (wetext_verbalize h t).

Definition call_free_string (s : string) : JNI E unit :=
  native_ (CallFreeString s) (wetext_free_string s) tt.

(** [result ? result : ""] *)
Definition or_empty (result : c_result) : string :=
  match result with
  | Some s => s
  | None => ""
  end.

(** [if (result) { wetext_free_string(result); }] *)
Definition free_if_set (result : c_result) : JNI E unit :=
  match result with
  | Some s => call_free_string s
  | None => jret tt
  end.

(** *** The five exported functions *)

Definition Java_com_wetext_WetextProcessor_nativeCreateProcessor
    (taggerPath verbalizerPath : jstring) : JNI E jlong :=
  tagger <- GetStringUTFChars taggerPath ;;
  verbalizer <- GetStringUTFChars verbalizerPath ;;
  handle <- call_create_processor tagger verbalizer ;;
  ReleaseStringUTFChars taggerPath tagger ;;;
  ReleaseStringUTFChars verbalizerPath verbalizer ;;;
  jret (handle_to_jlong handle).

Definition Java_com_wetext_WetextProcessor_nativeDestroyProcessor
    (handle : jlong) : JNI E unit :=
  if negb (handle =? 0)
  then call_destroy_processor (jlong_to_handle handle)
  else jret tt.

Definition Java_com_wetext_WetextProcessor_nativeNormalize
    (handle : jlong) (input : jstring) : JNI E jstring :=
  if handle =? 0 then NewStringUTF ""
  else
    text <- GetStringUTFChars input ;;
    result <- call_normalize (jlong_to_handle handle) text ;;
    ReleaseStringUTFChars input text ;;;
    jresult <- NewStringUTF (or_empty result) ;;
    free_if_set result ;;;
    jret jresult.

Definition Java_com_wetext_WetextProcessor_nativeTag
    (handle : jlong) (input : jstring) : JNI E jstring :=
  if handle =? 0 then NewStringUTF ""
  else
    text <- GetStringUTFChars input ;;
    result <- call_tag (jlong_to_handle handle) text ;;
    ReleaseStringUTFChars input text ;;;
    jresult <- NewStringUTF (or_empty result) ;;
    free_if_set result ;;;
    jret jresult.

Definition Java_com_wetext_WetextProcessor_nativeVerbalize
    (handle : jlong) (input : jstring) : JNI E jstring :=
  if handle =? 0 then NewStringUTF ""
  else
    text <- GetStringUTFChars input ;;
    result <- call_verbalize (jlong_to_handle handle) text ;;
    ReleaseStringUTFChars input text ;;;
    jresult <- NewStringUTF (or_empty result) ;;
    free_if_set result ;;;
    jret jresult.

(** *** The three text operations, side by side *)

Inductive TextOp := OpNormalize | OpTag | OpVerbalize.

Definition text_binding (op : TextOp) : jlong -> jstring -> JNI E jstring :=
  match op with
  | OpNormalize => Java_com_wetext_WetextProcessor_nativeNormalize
  | OpTag => Java_com_wetext_WetextProcessor_nativeTag
  | OpVerbalize => Java_com_wetext_WetextProcessor_nativeVerbalize
  end.

Definition text_api (op : TextOp)
  : WetextProcessorHandle -> string -> E -> option (c_result * E) :=
  match op with
  | OpNormalize => wetext_normalize
  | OpTag => wetext_tag
  | OpVerbalize => wetext_verbalize
  end.

Definition text_call (op : TextOp)
  : WetextProcessorHandle -> string -> NativeCall :=
  match op with
  | OpNormalize => CallNormalize
  | OpTag => CallTag
  | OpVerbalize => CallVerbalize
  end.

(** What [free_if_set] asks of the engine. *)
Definition free_result (result : c_result) (e : E) : option E :=
  match result with
  | Some s => wetext_free_string s e
  | None => Some e
  end.

(** All five operations, run for their effect on the world. *)
Inductive Operation :=
| CreateProcessor (taggerPath verbalizerPath : jstring)
| DestroyProcessor (handle : jlong)
| TextOperation (op : TextOp) (handle : jlong) (input : jstring).

Definition world_after {A} (m : JNI E A) (w : World E) : option (World E) :=
  match m w with
  | Some (_, w') => Some w'
  | None => None
  end.

Definition run_operation (o : Operation) : World E -> option (World E) :=
  match o with
  | CreateProcessor taggerPath verbalizerPath =>
      world_after
        (Java_com_wetext_WetextProcessor_nativeCreateProcessor
           taggerPath verbalizerPath)
  | DestroyProcessor handle =>
      world_after (Java_com_wetext_WetextProcessor_nativeDestroyProcessor handle)
  | TextOperation op handle input =>
      world_after (text_binding op handle input)
  end.

(** *** Observations on traces *)

(** The strings handed to [wetext_free_string], in order. *)
Fixpoint freed (t : list Event) : list string :=
  match t with
  | [] => []
  | EvNative (CallFreeString s) :: t' => s :: freed t'
  | _ :: t' => freed t'
  end.

(** The calls made into the engine, in order. *)
Fixpoint native_calls (t : list Event) : list NativeCall :=
  match t with
  | [] => []
  | EvNative c :: t' => c :: native_calls t'
  | _ :: t' => native_calls t'
  end.

Fixpoint remove_held (s : string) (b : utf_chars)
    (held : list (string * utf_chars)) : option (list (string * utf_chars)) :=
  match held with
  | [] => None
  | (s', b') :: rest =>
      if String.eqb s s' && Nat.eqb b b' then Some rest
      else match remove_held s b rest with
           | Some rest' => Some ((s', b') :: rest')
           | None => None
           end
  end.

(** Runs a trace against the list of UTF buffers held so far: an
    acquisition adds its buffer, a release must find its buffer (same
    string, same buffer) and removes it. *)
Fixpoint utf_held (t : list Event) (held : list (string * utf_chars))
  : option (list (string * utf_chars)) :=
  match t with
  | [] => Some held
  | EvGetStringUTFChars s b :: t' => utf_held t' ((s, b) :: held)
  | EvReleaseStringUTFChars s b :: t' =>
      match remove_held s b held with
      | Some held' => utf_held t' held'
      | None => None
      end
  | _ :: t' => utf_held t' held
  end.

(** Every acquisition of the trace is matched by exactly one later release,
    and nothing is released that was not acquired. *)
Definition utf_paired (t : list Event) : bool :=
  match utf_held t [] with
  | Some [] => true
  | _ => false
  end.

End Binding.

(** ** The core behind the C API

    The engine (tagger, verbalizer, pipeline, session registry) is not part
    of the binding's sources.  The definitions of this module are written
    from the specification of the core and instantiate [WetextCApi]. *)
Module Core.

Local Open Scope nat_scope.

(** *** Strings as character sequences *)

Fixpoint take_chars (n : nat) (s : string) : string :=
  match n, s with
  | S k, String c rest => String c (take_chars k rest)
  | _, _ => EmptyString
  end.

Fixpoint drop_chars (n : nat) (s : string) : string :=
  match n, s with
  | S k, String c rest => drop_chars k rest
  | _, _ => s
  end.

Definition concat_strings (l : list string) : string :=
  fold_right String.append EmptyString l.

(** *** Data model *)

Definition Fields := list (string * string).

(** Modelled from the spec: a TaggedSpan, missing from the sources, is a
    contiguous region of input text annotated with a semantic category and
    extracted field values; an untagged (pass-through) span has no
    category. *)
Record TaggedSpan := mkSpan {
  span_text : string;
  span_category : option string;
  span_fields : Fields
}.

(** Modelled from the spec: a rule of the tagger grammar, missing from the
    sources, maps a pattern to a classification.  The pattern is a matcher
    (the grammar semantics is pluggable): on the text that starts at the
    current position it answers the length of the prefix it matches and
    the fields it extracts. *)
Record TagRule := mkRule {
  rule_category : string;
  rule_match : string -> option (nat * Fields)
}.

(** Modelled from the spec: a ProcessorSession, missing from the sources,
    owns exactly one tagger grammar (rules in priority order) and one
    verbalizer grammar (category to rewrite rule). *)
Record ProcessorSession := mkSession {
  tagger_grammar : list TagRule;
  verbalizer_grammar : gmap string (Fields -> string)
}.

(** Modelled from the spec: the Resource Loader, missing from the sources;
    [load(path)] gives a grammar or fails with a ResourceError when the
    path does not exist, is unreadable or does not parse. *)
Inductive ResourceError := NotFound | Unreadable | Malformed.

Definition Loader (G : Type) : Type := string -> G + ResourceError.

(** *** Tagger *)

(** A rule applies at a position when it matches a non-empty prefix of the
    remaining text. *)
Definition rule_at (r : TagRule) (rest : string) : option (nat * Fields) :=
  match rule_match r rest with
  | Some (n, fs) =>
      if (0 <? n) && (n <=? String.length rest) then Some (n, fs) else None
  | None => None
  end.

(** Modelled from the spec: the rule choice of the Tagger, missing from the
    sources: the longest match wins and, among matches of the same length,
    the rule of highest priority (the earliest of the grammar). *)
Fixpoint best_match (g : list TagRule) (rest : string)
  : option (string * nat * Fields) :=
  match g with
  | [] => None
  | r :: g' =>
      match rule_at r rest, best_match g' rest with
      | Some (n, fs), Some (c', n', fs') =>
          if n' <=? n then Some (rule_category r, n, fs)
          else Some (c', n', fs')
      | Some (n, fs), None => Some (rule_category r, n, fs)
      | None, other => other
      end
  end.

(** The left-to-right scan; [skip] counts the characters still covered by
    the span emitted last. *)
Fixpoint tag_from (g : list TagRule) (skip : nat) (text : string)
  : list TaggedSpan :=
  match text with
  | EmptyString => []
  | String c rest =>
      match skip with
      | S k => tag_from g k rest
      | O =>
          match best_match g text with
          | Some (cat, n, fs) =>
              mkSpan (take_chars n text) (Some cat) fs
                :: tag_from g (n - 1) rest
          | None =>
              mkSpan (String c EmptyString) None [] :: tag_from g 0 rest
          end
      end
  end.

(** Modelled from the spec: the Tagger, missing from the sources:
    [tag(grammar, inputText)] scans the input left to right, applies the
    longest/highest-priority matching rule at each position, emits a
    TaggedSpan for a match and passes an unmatched character through
    verbatim as an untagged span. *)
Definition tag (g : list TagRule) (inputText : string) : list TaggedSpan :=
  tag_from g 0 inputText.

(** The text of a span sequence with its annotations (category, fields)
    stripped. *)
Definition strip_annotations (spans : list TaggedSpan) : string :=
  concat_strings (map span_text spans).

(** No rule of the grammar matches at any position of the text. *)
Fixpoint no_match_anywhere (g : list TagRule) (text : string) : bool :=
  match text with
  | EmptyString => true
  | String c rest =>
      match best_match g text with
      | Some _ => false
      | None => no_match_anywhere g rest
      end
  end.

(** *** Verbalizer *)

Definition verbalize_span (vg : gmap string (Fields -> string))
    (sp : TaggedSpan) : string :=
  match span_category sp with
  | None => span_text sp
  | Some cat =>
      match vg !! cat with
      | Some rewrite => rewrite (span_fields sp)
      | None => span_text sp
      end
  end.

(** Modelled from the spec: the Verbalizer, missing from the sources:
    [verbalize(grammar, taggedSpans)] rewrites each tagged span with the
    rule of its category applied to its fields, passes untagged spans and
    spans without a rule through literally, and concatenates in document
    order. *)
Definition verbalize (vg : gmap string (Fields -> string))
    (taggedSpans : list TaggedSpan) : string :=
  concat_strings (map (verbalize_span vg) taggedSpans).

(** *** Pipeline *)

(** Modelled from the spec: the Normalization Pipeline, missing from the
    sources: [normalize(grammar pair, inputText)] is
    [verbalize(verbalizerGrammar, tag(taggerGrammar, inputText))]. *)
Definition normalize (s : ProcessorSession) (inputText : string) : string :=
  verbalize (verbalizer_grammar s) (tag (tagger_grammar s) inputText).

(** *** Sessions and the C API *)

(** The serialized form of a span sequence that [tag] hands out and
    [verbalize] reads back; the specification leaves the format open. *)
Record Format := mkFormat {
  serialize : list TaggedSpan -> string;
  deserialize : string -> list TaggedSpan
}.

(** The state of the core: what the two loaders find on disk, the format of
    the tagged form, the registry of live sessions by handle address, and
    the strings handed out and not yet given back. *)
Record CoreState := mkCore {
  tagger_files : Loader (list TagRule);
  verbalizer_files : Loader (gmap string (Fields -> string));
  tagged_form : Format;
  sessions : gmap Z ProcessorSession;
  allocated : list string
}.

Definition with_sessions (st : CoreState) (m : gmap Z ProcessorSession)
  : CoreState :=
  mkCore (tagger_files st) (verbalizer_files st) (tagged_form st) m
    (allocated st).

Definition with_allocated (st : CoreState) (l : list string) : CoreState :=
  mkCore (tagger_files st) (verbalizer_files st) (tagged_form st)
    (sessions st) l.

(** Modelled from the spec: [create], missing from the sources, loads both
    grammars through the Resource Loader; on any load failure it returns a
    null handle rather than raising. *)
Definition create (taggerPath verbalizerPath : string) (st : CoreState)
  : WetextProcessorHandle * CoreState :=
  match tagger_files st taggerPath, verbalizer_files st verbalizerPath with
  | inl tg, inl vg =>
      let h := fresh ({[ nullptr ]} ∪ dom (sessions st)) in
      (h, with_sessions st (<[h := mkSession tg vg]> (sessions st)))
  | _, _ => (nullptr, st)
  end.

(** Modelled from the spec: [destroy], missing from the sources, releases
    the session; on a null, destroyed or never-created handle it is a
    no-op. *)
Definition destroy (h : WetextProcessorHandle) (st : CoreState)
  : CoreState :=
  with_sessions st (delete h (sessions st)).

(** A string handed to the caller stays allocated until it is freed. *)
Definition hand_out (s : string) (st : CoreState) : c_result * CoreState :=
  (Some s, with_allocated st (s :: allocated st)).

(** Modelled from the spec: the per-call operations of the handle, missing
    from the sources: the full pipeline, the Tagger alone with its spans
    serialized, the Verbalizer alone on a serialized span sequence; on a
    null or invalid handle each returns an empty string. *)
Definition text_operation (run : ProcessorSession -> string -> string)
    (h : WetextProcessorHandle) (text : string) (st : CoreState)
  : c_result * CoreState :=
  match sessions st !! h with
  | Some s => hand_out (run s text) st
  | None => hand_out EmptyString st
  end.

Definition run_tag (fmt : Format) (s : ProcessorSession) (text : string)
  : string :=
  serialize fmt (tag (tagger_grammar s) text).

Definition run_verbalize (fmt : Format) (s : ProcessorSession)
    (text : string) : string :=
  verbalize (verbalizer_grammar s) (deserialize fmt text).

Fixpoint remove_first (s : string) (l : list string)
  : option (list string) :=
  match l with
  | [] => None
  | x :: rest =>
      if String.eqb s x then Some rest
      else match remove_first s rest with
           | Some rest' => Some (x :: rest')
           | None => None
           end
  end.

(** Modelled from the spec: the dedicated free operation, missing from the
    sources, gives back a string the core handed out; freeing anything
    else is a crash. *)
Definition free_string (s : string) (st : CoreState) : option CoreState :=
  match remove_first s (allocated st) with
  | Some l => Some (with_allocated st l)
  | None => None
  end.

#[global] Instance core_api : WetextCApi CoreState := {|
  wetext_create_processor t v st := Some (create t v st);
  wetext_destroy_processor h st := Some (destroy h st);
  wetext_normalize h text st := Some (text_operation normalize h text st);
  wetext_tag h text st :=
    Some (text_operation (run_tag (tagged_form st)) h text st);
  wetext_verbalize h text st :=
    Some (text_operation (run_verbalize (tagged_form st)) h text st);
  wetext_free_string := free_string
|}.

(** What a text operation answers for the handle behind a [jlong]: the
    result of its session, the empty string when there is none. *)
Definition core_output (op : TextOp) (st : CoreState) (h : jlong)
    (text : string) : string :=
  match sessions st !! jlong_to_handle h with
  | Some s =>
      match op with
      | OpNormalize => normalize s text
      | OpTag => run_tag (tagged_form st) s text
      | OpVerbalize => run_verbalize (tagged_form st) s text
      end
  | None => EmptyString
  end.

(** *** A small installation: one date grammar

    The tagger recognises [dddd-dd-dd] as DATE(year, month, day); the
    verbalizer rewrites DATE to month/day/year. *)

Definition is_digit (c : ascii) : bool :=
  let n := nat_of_ascii c in (48 <=? n) && (n <=? 57).

Definition date_match (s : string) : option (nat * Fields) :=
  match list_ascii_of_string (take_chars 10 s) with
  | [y1; y2; y3; y4; h1; m1; m2; h2; d1; d2] =>
      if forallb is_digit [y1; y2; y3; y4; m1; m2; d1; d2]
         && Ascii.eqb h1 "-" && Ascii.eqb h2 "-"
      then Some (10, [("year", string_of_list_ascii [y1; y2; y3; y4]);
                      ("month", string_of_list_ascii [m1; m2]);
                      ("day", string_of_list_ascii [d1; d2])])
      else None
  | _ => None
  end.

Definition date_rule : TagRule := mkRule "DATE" date_match.

Fixpoint field (k : string) (fs : Fields) : string :=
  match fs with
  | [] => EmptyString
  | (k', v) :: rest => if String.eqb k k' then v else field k rest
  end.

Definition date_rewrite (fs : Fields) : string :=
  (field "month" fs ++ "/" ++ field "day" fs ++ "/" ++ field "year" fs)%string.

Definition date_session : ProcessorSession :=
  mkSession [date_rule] {[ "DATE" := date_rewrite ]}.

(** The tagged form used by the installation: the plain text of the spans
    one way, that text tagged again the other way. *)
Definition date_form : Format :=
  mkFormat strip_annotations (tag [date_rule]).

Definition date_files {G} (name : string) (g : G) : Loader G :=
  fun path => if String.eqb path name then inl g else inr NotFound.

(** A core with the two grammar files on disk and one live session at
    address 4096. *)
Definition date_core : CoreState :=
  mkCore (date_files "date.tagger" [date_rule])
         (date_files "date.verbalizer" {[ "DATE" := date_rewrite ]})
         date_form
         {[ 4096%Z := date_session ]}
         [].

Definition date_world : World CoreState := mkWorld ∅ date_core [].

(** The same installation later in the life of the process: a UTF buffer is
    held, a string is out, an event is already in the trace. *)
Definition busy_world : World CoreState :=
  mkWorld {[ 0%nat := "held" ]}
          (with_allocated date_core ["earlier"])
          [EvNewStringUTF "earlier"].

End Core.

(** ** An engine that answers null

    Every text call returns the null pointer; used to exercise the binding on
    the path where the engine gives no result for a valid handle. *)
Module NullEngine.

#[global] Instance null_api : WetextCApi unit := {|
  wetext_create_processor _ _ e := Some (nullptr, e);
  wetext_destroy_processor _ e := Some e;
  wetext_normalize _ _ e := Some (None, e);
  wetext_tag _ _ e := Some (None, e);
  wetext_verbalize _ _ e := Some (None, e);
  wetext_free_string _ _ := None
|}.

Definition null_world : World unit := mkWorld ∅ tt [].

(** The world after [nativeCreateProcessor] on paths "t" and "v". *)
Definition null_world_created : World unit :=
  mkWorld ∅ tt
    [EvGetStringUTFChars "t" 0%nat; EvGetStringUTFChars "v" 1%nat;
     EvNative (CallCreateProcessor "t" "v");
     EvReleaseStringUTFChars "t" 0%nat; EvReleaseStringUTFChars "v" 1%nat].

End NullEngine.

(** ** Handles in flight *)

(** A pointer is an address of 64 bits. *)
Definition handle_in_range (p : WetextProcessorHandle) : bool :=
  (0 <=? p) && (p <? 2 ^ 64).

(** The handle a call into the engine carries, when it carries one. *)
Definition call_handle (c : NativeCall) : option WetextProcessorHandle :=
  match c with
  | CallDestroyProcessor h => Some h
  | CallNormalize h _ => Some h
  | CallTag h _ => Some h
  | CallVerbalize h _ => Some h
  | CallCreateProcessor _ _ => None
  | CallFreeString _ => None
  end.

(** The [jlong] an operation receives is a 64-bit value. *)
Definition operation_in_range (o : Operation) : bool :=
  match o with
  | CreateProcessor _ _ => true
  | DestroyProcessor handle => jlong_in_range handle
  | TextOperation _ handle _ => jlong_in_range handle
  end.

(** ** An engine that echoes

    Processors live in the upper half of the address space, so that their
    handles are negative as [jlong]; normalize and verbalize return their
    input, tag returns null; the state counts the strings handed out and
    not yet freed, and freeing with none out is a crash. *)
Module EchoEngine.

Definition high_handle : WetextProcessorHandle := 2 ^ 63 + 16.

#[global] Instance echo_api : WetextCApi nat := {|
  wetext_create_processor _ _ e := Some (high_handle, e);
  wetext_destroy_processor _ e := Some e;
  wetext_normalize _ text e := Some (Some text, S e);
  wetext_tag _ _ e := Some (None, e);
  wetext_verbalize _ text e := Some (Some text, S e);
  wetext_free_string _ e := match e with S e' => Some e' | O => None end
|}.

Definition echo_world : World nat := mkWorld ∅ O [].

(** The world after [nativeNormalize] on the handle -8 and the text "abc". *)
Definition echo_world_normalized : World nat :=
  mkWorld ∅ O
    [EvGetStringUTFChars "abc" 0%nat;
     EvNative (CallNormalize (2 ^ 64 - 8) "abc");
     EvReleaseStringUTFChars "abc" 0%nat;
     EvNewStringUTF "abc";
     EvNative (CallFreeString "abc")].

End EchoEngine.

(** * Properties of the binding, for every engine *)

Section BindingFacts.
Context {E : Type} `{WetextCApi E}.

Local Open Scope list_scope.

(** The two casts are inverse on the 64-bit range, and the binding's test
    [handle == 0] is the test for the null pointer. *)
Lemma handle_of_jlong_of_handle (j : jlong) :
  jlong_in_range j = true -> handle_to_jlong (jlong_to_handle j) = j.
Proof.
  unfold jlong_in_range, handle_to_jlong, jlong_to_handle.
  intros Hr. apply andb_prop in Hr as [Hlo Hhi].
  apply Z.leb_le in Hlo. apply Z.ltb_lt in Hhi.
  rewrite Z.mod_mod by lia.
  destruct (Z_lt_le_dec j 0) as [Hneg | Hpos].
  - replace (j mod 2 ^ 64) with (j + 2 ^ 64)
      by (apply Z.mod_unique with (q := -1); lia).
    destruct (j + 2 ^ 64 <? 2 ^ 63) eqn:Hc;
      [apply Z.ltb_lt in Hc; lia | lia].
  - rewrite Z.mod_small by lia.
    destruct (j <? 2 ^ 63) eqn:Hc; [reflexivity |].
    apply Z.ltb_ge in Hc. lia.
Qed.

Lemma jlong_to_handle_null (j : jlong) :
  jlong_in_range j = true -> (jlong_to_handle j = nullptr <-> j = 0).
Proof.
  intros Hr. split.
  - intros Hnull. rewrite <- (handle_of_jlong_of_handle j Hr), Hnull.
    reflexivity.
  - intros ->. reflexivity.
Qed.

Lemma fresh_buffer_unused (m : gmap nat string) : m !! fresh (dom m) = None.
Proof. apply not_elem_of_dom, is_fresh. Qed.

Lemma release_fresh_buffer (m : gmap nat string) (s : string) :
  delete (fresh (dom m)) (<[fresh (dom m) := s]> m) = m.
Proof. apply delete_insert_id, fresh_buffer_unused. Qed.

Lemma second_buffer_distinct (m : gmap nat string) (s : string) :
  fresh (dom (<[fresh (dom m) := s]> m)) ≠ fresh (dom m).
Proof.
  intros Heq.
  pose proof (fresh_buffer_unused (<[fresh (dom m) := s]> m)) as Hnone.
  rewrite Heq, lookup_insert_eq in Hnone. discriminate.
Qed.

Lemma release_two_buffers (m : gmap nat string) (s t : string) :
  let b1 := fresh (dom m) in
  let b2 := fresh (dom (<[b1 := s]> m)) in
  delete b2 (delete b1 (<[b2 := t]> (<[b1 := s]> m))) = m.
Proof.
  intros b1 b2.
  assert (Hne : b2 ≠ b1) by apply second_buffer_distinct.
  rewrite delete_insert_ne by congruence.
  unfold b1 at 1 2. rewrite release_fresh_buffer.
  apply delete_insert_id.
  pose proof (fresh_buffer_unused (<[b1 := s]> m)) as Hnone.
  fold b2 in Hnone. rewrite lookup_insert_ne in Hnone by congruence.
  exact Hnone.
Qed.

Ltac unfold_binding :=
  unfold Java_com_wetext_WetextProcessor_nativeCreateProcessor,
    Java_com_wetext_WetextProcessor_nativeNormalize,
    Java_com_wetext_WetextProcessor_nativeTag,
    Java_com_wetext_WetextProcessor_nativeVerbalize,
    call_create_processor, call_normalize, call_tag, call_verbalize,
    call_free_string, native_, NewStringUTF, log;
  unfold jbind, jret, GetStringUTFChars, ReleaseStringUTFChars, read_utf,
    native; simpl.

(** Every path of a text operation on a non-null handle. *)
Lemma text_binding_eq (op : TextOp) (h : jlong) (s : string) (w : World E) :
  h ≠ 0 ->
  text_binding op h (Some s) w =
    match text_api op (jlong_to_handle h) s (engine w) with
    | Some (r, e1) =>
        match free_result r e1 with
        | Some e2 =>
            Some (Some (or_empty r),
                  mkWorld (jvm_utf w) e2
                    (trace w ++
                       [EvGetStringUTFChars s (fresh (dom (jvm_utf w)));
                        EvNative (text_call op (jlong_to_handle h) s);
                        EvReleaseStringUTFChars s (fresh (dom (jvm_utf w)));
                        EvNewStringUTF (or_empty r)] ++
                       match r with
                       | Some x => [EvNative (CallFreeString x)]
                       | None => []
                       end))
        | None => None
        end
    | None => None
    end.
Proof.
  intros Hh. apply Z.eqb_neq in Hh.
  destruct op; cbn [text_binding text_api text_call].
  all: unfold_binding; rewrite Hh; simpl.
  all: rewrite lookup_insert_eq; simpl.
  all: match goal with
       | |- context [wetext_normalize ?a ?b ?c] =>
           destruct (wetext_normalize a b c) as [[r e1]|]
       | |- context [wetext_tag ?a ?b ?c] =>
           destruct (wetext_tag a b c) as [[r e1]|]
       | |- context [wetext_verbalize ?a ?b ?c] =>
           destruct (wetext_verbalize a b c) as [[r e1]|]
       end; simpl; [|reflexivity].
  all: rewrite lookup_insert_eq, String.eqb_refl; simpl.
  all: rewrite release_fresh_buffer.
  all: destruct r as [x|]; simpl.
  all: unfold call_free_string, native_, native, jret; simpl.
  all: try (destruct (wetext_free_string x e1) as [e2|]; simpl; [|reflexivity]).
  all: rewrite <- ?app_assoc; reflexivity.
Qed.

(** A text operation on a non-null handle, when the engine answers. *)
Lemma text_binding_run (op : TextOp) (h : jlong) (s : string) (w : World E)
    (r : c_result) (e1 e2 : E) :
  h ≠ 0 ->
  text_api op (jlong_to_handle h) s (engine w) = Some (r, e1) ->
  free_result r e1 = Some e2 ->
  text_binding op h (Some s) w =
    Some (Some (or_empty r),
          mkWorld (jvm_utf w) e2
            (trace w ++
               [EvGetStringUTFChars s (fresh (dom (jvm_utf w)));
                EvNative (text_call op (jlong_to_handle h) s);
                EvReleaseStringUTFChars s (fresh (dom (jvm_utf w)));
                EvNewStringUTF (or_empty r)] ++
               match r with
               | Some x => [EvNative (CallFreeString x)]
               | None => []
               end)).
Proof.
  intros Hh Hcall Hfree.
  rewrite text_binding_eq by exact Hh. rewrite Hcall, Hfree. reflexivity.
Qed.

(** A text operation on a null handle. *)
Lemma text_binding_null (op : TextOp) (input : jstring) (w : World E) :
  text_binding op 0 input w =
    Some (Some "", mkWorld (jvm_utf w) (engine w)
                     (trace w ++ [EvNewStringUTF ""])).
Proof. destruct op; reflexivity. Qed.

(** Every path of [nativeCreateProcessor] on two strings. *)
Lemma create_binding_eq (tp vp : string) (w : World E) :
  Java_com_wetext_WetextProcessor_nativeCreateProcessor (Some tp) (Some vp) w =
    match wetext_create_processor tp vp (engine w) with
    | Some (hd, e1) =>
        let b1 := fresh (dom (jvm_utf w)) in
        let b2 := fresh (dom (<[b1 := tp]> (jvm_utf w))) in
        Some (handle_to_jlong hd,
              mkWorld (jvm_utf w) e1
                (trace w ++
                   [EvGetStringUTFChars tp b1;
                    EvGetStringUTFChars vp b2;
                    EvNative (CallCreateProcessor tp vp);
                    EvReleaseStringUTFChars tp b1;
                    EvReleaseStringUTFChars vp b2]))
    | None => None
    end.
Proof.
  unfold_binding.
  pose proof (second_buffer_distinct (jvm_utf w) tp) as Hne.
  rewrite lookup_insert_ne, lookup_insert_eq by exact Hne; simpl.
  rewrite lookup_insert_eq; simpl.
  destruct (wetext_create_processor tp vp (engine w)) as [[hd e1]|];
    simpl; [|reflexivity].
  rewrite lookup_insert_ne, lookup_insert_eq by exact Hne; simpl.
  rewrite String.eqb_refl; simpl.
  rewrite lookup_delete_ne by (intros Heq; apply Hne; symmetry; exact Heq).
  rewrite lookup_insert_eq; simpl.
  rewrite String.eqb_refl; simpl.
  do 2 f_equal. f_equal.
  - exact (release_two_buffers (jvm_utf w) tp vp).
  - rewrite <- ?app_assoc; reflexivity.
Qed.

Lemma utf_paired_one (s : string) (b : utf_chars) (mid tl : list Event) :
  utf_held mid [(s, b)] = Some [(s, b)] ->
  utf_held tl [] = Some [] ->
  utf_paired (EvGetStringUTFChars s b :: mid
                ++ EvReleaseStringUTFChars s b :: tl) = true.
Proof.
  intros Hmid Htl. unfold utf_paired. simpl.
  assert (Hgen : forall t held held',
             utf_held t held = Some held' ->
             forall t', utf_held (t ++ t') held = utf_held t' held').
  { induction t as [|e t IH]; simpl; intros held held' Hrun t'.
    - congruence.
    - destruct e; eauto.
      destruct (remove_held s0 buf held); [eauto | discriminate]. }
  rewrite (Hgen _ _ _ Hmid). simpl.
  rewrite String.eqb_refl, Nat.eqb_refl. simpl.
  rewrite Htl. reflexivity.
Qed.

Lemma utf_paired_two (s t : string) (b1 b2 : utf_chars) (c : NativeCall) :
  b2 ≠ b1 ->
  utf_paired [EvGetStringUTFChars s b1; EvGetStringUTFChars t b2;
              EvNative c;
              EvReleaseStringUTFChars s b1; EvReleaseStringUTFChars t b2]
  = true.
Proof.
  intros Hne. unfold utf_paired. simpl.
  assert (Hb : Nat.eqb b1 b2 = false)
    by (apply Nat.eqb_neq; intros Heq; apply Hne; symmetry; exact Heq).
  rewrite Hb, andb_false_r, !String.eqb_refl, !Nat.eqb_refl. simpl.
  rewrite String.eqb_refl, Nat.eqb_refl. reflexivity.
Qed.

Lemma utf_paired_text (s : string) (b : utf_chars) (c : NativeCall)
    (tl : list Event) :
  utf_held tl [] = Some [] ->
  utf_paired (EvGetStringUTFChars s b :: EvNative c
                :: EvReleaseStringUTFChars s b :: tl) = true.
Proof.
  intros Htl.
  apply (utf_paired_one s b [EvNative c] tl); [reflexivity | exact Htl].
Qed.

Lemma freed_app (t u : list Event) :
  freed (t ++ u) = (freed t ++ freed u)%list.
Proof.
  induction t as [|e t IH]; simpl; [reflexivity |].
  destruct e as [| | |c]; try apply IH.
  destruct c; try apply IH. simpl. f_equal. apply IH.
Qed.

Lemma native_calls_app (t u : list Event) :
  native_calls (t ++ u) = (native_calls t ++ native_calls u)%list.
Proof.
  induction t as [|e t IH]; simpl; [reflexivity |].
  destruct e; simpl; congruence.
Qed.

(** C1. A call to normalize, tag or verbalize with the null (zero) handle
    returns the empty string on any input, a null input reference
    included: the run does not crash, the engine state is untouched and the
    only event is the creation of the empty Java string, so no call is
    made into the engine, whatever the engine is. *)
Theorem null_handle_returns_empty (op : TextOp) (input : jstring)
    (w : World E) :
  text_binding op 0 input w =
    Some (Some "", mkWorld (jvm_utf w) (engine w)
                     (trace w ++ [EvNewStringUTF ""]))
  /\ native_calls (trace w ++ [EvNewStringUTF ""]) = native_calls (trace w).
Proof.
  split; [apply text_binding_null |].
  rewrite native_calls_app. apply app_nil_r.
Qed.

(** C2. Destroy on the null (zero) handle is a no-op: the run returns with
    the world exactly as it was, so nothing is dereferenced, even for an
    engine whose destroy would crash.  On every run that returns, the
    native destroy function is invoked exactly when the handle is
    non-zero. *)
Theorem destroy_null_is_noop (w : World E) :
  Java_com_wetext_WetextProcessor_nativeDestroyProcessor 0 w = Some (tt, w)
  /\ forall (h : jlong) (w' : World E),
       Java_com_wetext_WetextProcessor_nativeDestroyProcessor h w
       = Some (tt, w') ->
       native_calls (trace w') =
         native_calls (trace w) ++
           (if h =? 0 then []
            else [CallDestroyProcessor (jlong_to_handle h)]).
Proof.
  split; [reflexivity |].
  intros h w'.
  unfold Java_com_wetext_WetextProcessor_nativeDestroyProcessor.
  destruct (h =? 0); simpl.
  - intros Hrun. injection Hrun as <-. symmetry. apply app_nil_r.
  - unfold call_destroy_processor, native_, native.
    destruct (wetext_destroy_processor (jlong_to_handle h) (engine w));
      [| discriminate].
    intros Hrun. injection Hrun as <-. cbn [trace].
    apply native_calls_app.
Qed.

(** C8. In normalize, tag and verbalize on a non-null handle, when the
    engine answers [r] and the free operation does not crash, the binding
    returns and [wetext_free_string] is called exactly when [r] is
    non-null, on [r] itself, as the last event and right after the
    contents of [r] were copied into a new Java string. *)
Theorem result_freed_after_copy (op : TextOp) (h : jlong) (s : string)
    (w : World E) (r : c_result) (e1 e2 : E) :
  h ≠ 0 ->
  text_api op (jlong_to_handle h) s (engine w) = Some (r, e1) ->
  free_result r e1 = Some e2 ->
  exists (w' : World E) (pre : list Event),
    text_binding op h (Some s) w = Some (Some (or_empty r), w')
    /\ trace w' =
         (trace w ++ pre ++ EvNewStringUTF (or_empty r)
            :: match r with
               | Some x => [EvNative (CallFreeString x)]
               | None => []
               end)%list
    /\ freed pre = []
    /\ freed (trace w') =
         (freed (trace w) ++ match r with Some x => [x] | None => [] end)%list.
Proof.
  intros Hh Hcall Hfree.
  eexists.
  exists [EvGetStringUTFChars s (fresh (dom (jvm_utf w)));
          EvNative (text_call op (jlong_to_handle h) s);
          EvReleaseStringUTFChars s (fresh (dom (jvm_utf w)))].
  split; [apply (text_binding_run op h s w r e1 e2 Hh Hcall Hfree) |].
  split; [reflexivity |].
  split; [destruct op; reflexivity |].
  cbn [trace].
  rewrite freed_app. f_equal.
  destruct op, r; reflexivity.
Qed.

(** C9. When the engine returns a null pointer for a non-null handle, the
    binding returns the empty string (a string, not a null reference, and
    no crash) and skips the free operation: the engine is left in the
    state of the call and the trace holds no call to
    [wetext_free_string]. *)
Theorem null_result_returns_empty (op : TextOp) (h : jlong) (s : string)
    (w : World E) (e1 : E) :
  h ≠ 0 ->
  text_api op (jlong_to_handle h) s (engine w) = Some (None, e1) ->
  text_binding op h (Some s) w =
    Some (Some "",
          mkWorld (jvm_utf w) e1
            (trace w ++
               [EvGetStringUTFChars s (fresh (dom (jvm_utf w)));
                EvNative (text_call op (jlong_to_handle h) s);
                EvReleaseStringUTFChars s (fresh (dom (jvm_utf w)));
                EvNewStringUTF ""])).
Proof.
  intros Hh Hcall.
  apply (text_binding_run op h s w None e1 e1 Hh Hcall). reflexivity.
Qed.

(** C10. On every run of a binding operation that returns, the live UTF
    buffers are those of the start and, in the events of the run, every
    [GetStringUTFChars] is matched by exactly one later
    [ReleaseStringUTFChars] of the same string and buffer; this covers the
    null-handle path and the path where the engine's result is null.  In
    create, whatever handle the engine returns, the two releases come
    after the native create call. *)
Theorem utf_buffers_paired (o : Operation) (w w' : World E) :
  run_operation o w = Some w' ->
  jvm_utf w' = jvm_utf w
  /\ exists evs,
       trace w' = trace w ++ evs
       /\ utf_paired evs = true
       /\ match o with
          | CreateProcessor taggerPath verbalizerPath =>
              exists t v b1 b2,
                taggerPath = Some t /\ verbalizerPath = Some v
                /\ evs = [EvGetStringUTFChars t b1;
                          EvGetStringUTFChars v b2;
                          EvNative (CallCreateProcessor t v);
                          EvReleaseStringUTFChars t b1;
                          EvReleaseStringUTFChars v b2]
          | _ => True
          end.
Proof.
  destruct o as [tp vp | h | op h input]; unfold run_operation, world_after.
  - destruct tp as [t|]; [| discriminate].
    destruct vp as [v|]; [| discriminate].
    rewrite create_binding_eq.
    destruct (wetext_create_processor t v (engine w)) as [[hd e1]|];
      [| discriminate].
    cbv zeta. intros Hrun. injection Hrun as <-. cbn [jvm_utf trace].
    split; [reflexivity |]. eexists. split; [reflexivity |].
    split; [apply utf_paired_two, second_buffer_distinct |].
    do 4 eexists. repeat split.
  - unfold Java_com_wetext_WetextProcessor_nativeDestroyProcessor.
    destruct (h =? 0); simpl.
    + intros Hrun. injection Hrun as <-.
      split; [reflexivity |]. exists []. rewrite app_nil_r. repeat split.
    + unfold call_destroy_processor, native_, native.
      destruct (wetext_destroy_processor (jlong_to_handle h) (engine w));
        [| discriminate].
      intros Hrun. injection Hrun as <-. cbn [jvm_utf trace].
      split; [reflexivity |]. eexists. repeat split.
  - destruct (Z.eq_dec h 0) as [-> | Hh].
    + rewrite text_binding_null. intros Hrun. injection Hrun as <-.
      cbn [jvm_utf trace]. split; [reflexivity |]. eexists. repeat split.
    + destruct input as [s|].
      2:{ destruct op; simpl;
          unfold Java_com_wetext_WetextProcessor_nativeNormalize,
            Java_com_wetext_WetextProcessor_nativeTag,
            Java_com_wetext_WetextProcessor_nativeVerbalize;
          rewrite (proj2 (Z.eqb_neq h 0) Hh); discriminate. }
      rewrite text_binding_eq by exact Hh.
      destruct (text_api op (jlong_to_handle h) s (engine w))
        as [[r e1]|]; [| discriminate].
      destruct (free_result r e1) as [e2|]; [| discriminate].
      intros Hrun. injection Hrun as <-. cbn [jvm_utf trace].
      split; [reflexivity |]. eexists. split; [reflexivity |].
      split; [| exact I].
      apply utf_paired_text. destruct r; reflexivity.
Qed.

End BindingFacts.

(** * Properties of the core model and of the binding over it *)

Section CoreFacts.
Import Core.

Local Open Scope list_scope.

Lemma append_cons (c : ascii) (a b : string) :
  String.append (String c a) b = String c (String.append a b).
Proof. reflexivity. Qed.

Lemma take_drop_chars (n : nat) (s : string) :
  (take_chars n s ++ drop_chars n s)%string = s.
Proof.
  revert s. induction n as [|n IH]; intros s; [reflexivity |].
  destruct s as [|c rest]; [reflexivity |].
  cbn [take_chars drop_chars]. rewrite append_cons. f_equal. apply IH.
Qed.

Lemma rule_at_bounds (r : TagRule) (rest : string) (n : nat) (fs : Fields) :
  rule_at r rest = Some (n, fs) -> (1 <= n <= String.length rest)%nat.
Proof.
  unfold rule_at. destruct (rule_match r rest) as [[m gs]|]; [| discriminate].
  destruct (0 <? m)%nat eqn:Hpos; simpl; [| discriminate].
  destruct (m <=? String.length rest)%nat eqn:Hlen; [| discriminate].
  intros Heq. injection Heq as -> ->.
  apply Nat.ltb_lt in Hpos. apply Nat.leb_le in Hlen. lia.
Qed.

Lemma best_match_bounds (g : list TagRule) (rest cat : string) (n : nat)
    (fs : Fields) :
  best_match g rest = Some (cat, n, fs) ->
  (1 <= n <= String.length rest)%nat.
Proof.
  revert cat n fs. induction g as [|r g IH]; intros cat n fs; [discriminate |].
  simpl.
  destruct (rule_at r rest) as [[m gs]|] eqn:Hr.
  - pose proof (rule_at_bounds _ _ _ _ Hr) as Hm.
    destruct (best_match g rest) as [[[c' n'] fs']|].
    + destruct (n' <=? m)%nat; intros Heq; injection Heq as <- <- <-;
        [exact Hm | eapply IH; reflexivity].
    + intros Heq; injection Heq as <- <- <-. exact Hm.
  - apply IH.
Qed.

(** The scan covers the text: what the spans of [tag_from g k text] hold is
    the text after the [k] characters still owed to the previous span. *)
Lemma strip_tag_from (g : list TagRule) (text : string) (k : nat) :
  strip_annotations (tag_from g k text) = drop_chars k text.
Proof.
  revert k. induction text as [|c rest IH]; intros k.
  - destruct k; reflexivity.
  - destruct k as [|k]; [| apply IH].
    cbn [tag_from].
    destruct (best_match g (String c rest)) as [[[cat n] fs]|] eqn:Hm.
    + pose proof (best_match_bounds _ _ _ _ _ Hm) as [Hpos _].
      unfold strip_annotations in *. cbn [map fold_right concat_strings span_text].
      fold (concat_strings (map span_text (tag_from g (n - 1) rest))).
      rewrite IH.
      destruct n as [|n]; [lia |].
      replace (S n - 1)%nat with n by lia.
      change (drop_chars n rest) with (drop_chars (S n) (String c rest)).
      apply take_drop_chars.
    + unfold strip_annotations in *. cbn [map fold_right concat_strings span_text].
      fold (concat_strings (map span_text (tag_from g 0 rest))).
      rewrite IH. reflexivity.
Qed.

(** C4. For every tagger grammar and every input text, the spans produced
    by [tag], with their annotations stripped and concatenated in order,
    give back the text exactly. *)
Theorem tag_lossless (g : list TagRule) (inputText : string) :
  strip_annotations (tag g inputText) = inputText.
Proof. unfold tag. apply strip_tag_from. Qed.

Lemma verbalize_unmatched (g : list TagRule)
    (vg : gmap string (Fields -> string)) (text : string) :
  no_match_anywhere g text = true ->
  verbalize vg (tag_from g 0 text) = text.
Proof.
  induction text as [|c rest IH]; [reflexivity |].
  cbn [no_match_anywhere tag_from].
  destruct (best_match g (String c rest)); [discriminate |].
  intros Hrest. unfold verbalize in *. cbn [map concat_strings fold_right].
  fold (concat_strings (map (verbalize_span vg) (tag_from g 0 rest))).
  rewrite (IH Hrest). reflexivity.
Qed.

Lemma release_handed_out (st : CoreState) (s : string) :
  free_string s (snd (hand_out s st)) = Some st.
Proof.
  unfold free_string, hand_out, with_allocated. simpl.
  rewrite String.eqb_refl. destruct st; reflexivity.
Qed.

(** A text operation over the core, on a non-null handle: it returns what
    the session makes of the text and gives back the string it was handed,
    so that the core ends in the state it had. *)
Lemma core_text_run (op : TextOp) (h : jlong) (text : string)
    (w : World CoreState) :
  h ≠ 0 ->
  text_binding op h (Some text) w =
    Some (Some (core_output op (engine w) h text),
          mkWorld (jvm_utf w) (engine w)
            (trace w ++
               [EvGetStringUTFChars text (fresh (dom (jvm_utf w)));
                EvNative (text_call op (jlong_to_handle h) text);
                EvReleaseStringUTFChars text (fresh (dom (jvm_utf w)));
                EvNewStringUTF (core_output op (engine w) h text);
                EvNative (CallFreeString (core_output op (engine w) h text))])).
Proof.
  intros Hh.
  apply (text_binding_run op h text w
           (Some (core_output op (engine w) h text))
           (snd (hand_out (core_output op (engine w) h text) (engine w)))
           (engine w) Hh).
  - destruct op;
      cbn [text_api wetext_normalize wetext_tag wetext_verbalize core_api];
      unfold text_operation, core_output;
      destruct (sessions (engine w) !! jlong_to_handle h); reflexivity.
  - apply release_handed_out.
Qed.

Lemma core_normalize_run (h : jlong) (text : string) (w : World CoreState) :
  h ≠ 0 ->
  Java_com_wetext_WetextProcessor_nativeNormalize h (Some text) w =
    Some (Some (core_output OpNormalize (engine w) h text),
          mkWorld (jvm_utf w) (engine w)
            (trace w ++
               [EvGetStringUTFChars text (fresh (dom (jvm_utf w)));
                EvNative (CallNormalize (jlong_to_handle h) text);
                EvReleaseStringUTFChars text (fresh (dom (jvm_utf w)));
                EvNewStringUTF (core_output OpNormalize (engine w) h text);
                EvNative (CallFreeString
                            (core_output OpNormalize (engine w) h text))])).
Proof. apply (core_text_run OpNormalize). Qed.

(** The tagged form of the date installation reads back as the spans it was
    written from, for every text. *)
Lemma date_form_reads_back (text : string) :
  deserialize date_form (serialize date_form (tag [date_rule] text))
  = tag [date_rule] text.
Proof.
  cbn [deserialize serialize date_form]. unfold tag at 2.
  rewrite strip_tag_from. reflexivity.
Qed.

(** The end-to-end example of the specification. *)
Example date_example :
  normalize date_session "Meeting on 2024-03-15 confirmed"
  = "Meeting on 03/15/2024 confirmed".
Proof. reflexivity. Qed.

(** Through the binding: a processor created from the two grammar files
    gets a non-null handle, and normalize on that handle rewrites the
    date. *)
Example create_then_normalize :
  option_map fst
    ((h <- Java_com_wetext_WetextProcessor_nativeCreateProcessor
             (Some "date.tagger") (Some "date.verbalizer") ;;
      out <- Java_com_wetext_WetextProcessor_nativeNormalize h
               (Some "Meeting on 2024-03-15 confirmed") ;;
      jret (negb (h =? 0), out))%jni date_world)
  = Some (true, Some "Meeting on 03/15/2024 confirmed").
Proof. vm_compute. reflexivity. Qed.

(** C3. For every valid session (a non-null handle that the registry maps
    to a grammar pair) and every input text, normalize through the binding
    returns [verbalize] of the verbalizer grammar applied to [tag] of the
    tagger grammar on the text, and the core is left in the state it had:
    the pipeline keeps no state of its own.  When the tagged form of the
    spans of the text reads back as those spans, tag followed by verbalize
    through the binding returns that same string. *)
Theorem normalize_is_verbalize_of_tag (h : jlong) (T : string)
    (w : World CoreState) (s : ProcessorSession) :
  h ≠ 0 ->
  sessions (engine w) !! jlong_to_handle h = Some s ->
  (exists w',
      Java_com_wetext_WetextProcessor_nativeNormalize h (Some T) w
      = Some (Some (verbalize (verbalizer_grammar s)
                      (tag (tagger_grammar s) T)), w')
      /\ engine w' = engine w)
  /\ (deserialize (tagged_form (engine w))
        (serialize (tagged_form (engine w)) (tag (tagger_grammar s) T))
      = tag (tagger_grammar s) T ->
      exists tagged w1 w2,
        Java_com_wetext_WetextProcessor_nativeTag h (Some T) w
        = Some (Some tagged, w1)
        /\ Java_com_wetext_WetextProcessor_nativeVerbalize h (Some tagged) w1
           = Some (Some (verbalize (verbalizer_grammar s)
                           (tag (tagger_grammar s) T)), w2)
        /\ engine w2 = engine w).
Proof.
  intros Hh Hs. split.
  - rewrite core_normalize_run by exact Hh.
    unfold core_output. rewrite Hs. eexists. split; reflexivity.
  - intros Hback.
    exists (core_output OpTag (engine w) h T). do 2 eexists.
    split; [apply (core_text_run OpTag h T w Hh) |].
    split.
    + change (@Java_com_wetext_WetextProcessor_nativeVerbalize CoreState core_api)
        with (@text_binding CoreState core_api OpVerbalize).
      rewrite core_text_run by exact Hh. cbn [engine].
      unfold core_output. rewrite Hs. unfold run_verbalize, run_tag.
      rewrite Hback. reflexivity.
    + reflexivity.
Qed.

(** C5. Over the core, create always returns (it never raises across the
    boundary); when loading the tagger grammar or the verbalizer grammar
    fails, the handle returned is null (zero), no session is registered,
    and a following normalize on that handle returns the empty string. *)
Theorem create_failure_gives_null (tp vp input : string)
    (w : World CoreState) :
  (exists hd w',
      Java_com_wetext_WetextProcessor_nativeCreateProcessor
        (Some tp) (Some vp) w = Some (hd, w'))
  /\ ((exists err, tagger_files (engine w) tp = inr err)
      \/ (exists err, verbalizer_files (engine w) vp = inr err) ->
      exists w' w'',
        Java_com_wetext_WetextProcessor_nativeCreateProcessor
          (Some tp) (Some vp) w = Some (0, w')
        /\ engine w' = engine w
        /\ Java_com_wetext_WetextProcessor_nativeNormalize 0 (Some input) w'
           = Some (Some "", w'')).
Proof.
  rewrite create_binding_eq. cbn [wetext_create_processor core_api].
  split.
  - destruct (create tp vp (engine w)) as [hd e1]. do 2 eexists. reflexivity.
  - intros Hfail.
    assert (Hnull : create tp vp (engine w) = (nullptr, engine w)).
    { unfold create.
      destruct Hfail as [[err Herr] | [err Herr]]; rewrite Herr.
      - reflexivity.
      - destruct (tagger_files (engine w) tp); reflexivity. }
    rewrite Hnull. cbv zeta.
    do 2 eexists. split; [reflexivity |]. split; [reflexivity |].
    apply (text_binding_null OpNormalize (Some input)).
Qed.

(** C6. normalize is deterministic: in two worlds where the handle stands
    for the same grammar pair, two invocations of normalize on the same
    text both return, with identical strings; so does a second invocation
    made in the world the first one leaves. *)
Theorem normalize_deterministic (h : jlong) (T : string)
    (w1 w2 : World CoreState) :
  sessions (engine w1) !! jlong_to_handle h
  = sessions (engine w2) !! jlong_to_handle h ->
  exists out w1' w2' w1'',
    Java_com_wetext_WetextProcessor_nativeNormalize h (Some T) w1
    = Some (out, w1')
    /\ Java_com_wetext_WetextProcessor_nativeNormalize h (Some T) w2
       = Some (out, w2')
    /\ Java_com_wetext_WetextProcessor_nativeNormalize h (Some T) w1'
       = Some (out, w1'').
Proof.
  intros Hsame.
  destruct (Z.eq_dec h 0) as [-> | Hh].
  - exists (Some ""). do 3 eexists.
    split; [apply (text_binding_null OpNormalize (Some T)) |].
    split; apply (text_binding_null OpNormalize (Some T)).
  - exists (Some (core_output OpNormalize (engine w1) h T)). do 3 eexists.
    split; [apply core_normalize_run; exact Hh |].
    split.
    + rewrite core_normalize_run by exact Hh.
      unfold core_output. rewrite Hsame. reflexivity.
    + rewrite core_normalize_run by exact Hh. reflexivity.
Qed.

(** C7. For every valid session and every input text in which no rule of
    the tagger grammar matches at any position, normalize through the
    binding returns the text itself. *)
Theorem normalize_unmatched_is_identity (h : jlong) (T : string)
    (w : World CoreState) (s : ProcessorSession) :
  h ≠ 0 ->
  sessions (engine w) !! jlong_to_handle h = Some s ->
  no_match_anywhere (tagger_grammar s) T = true ->
  exists w',
    Java_com_wetext_WetextProcessor_nativeNormalize h (Some T) w
    = Some (Some T, w')
    /\ engine w' = engine w.
Proof.
  intros Hh Hs Hnone. rewrite core_normalize_run by exact Hh.
  unfold core_output. rewrite Hs. unfold normalize, tag.
  rewrite (verbalize_unmatched _ _ _ Hnone).
  eexists. split; reflexivity.
Qed.

End CoreFacts.

(** * How the operations of the binding compose, for every engine *)

Section BindingLifecycle.
Context {E : Type} `{WetextCApi E}.

Local Open Scope list_scope.

(** A pointer survives the cast to [jlong] and back, and the [jlong] in
    between is a 64-bit value. *)
Lemma jlong_of_handle_of_jlong (p : WetextProcessorHandle) :
  handle_in_range p = true ->
  jlong_to_handle (handle_to_jlong p) = p
  /\ jlong_in_range (handle_to_jlong p) = true.
Proof.
  unfold handle_in_range, jlong_in_range, handle_to_jlong, jlong_to_handle.
  intros Hr. apply andb_prop in Hr as [Hlo Hhi].
  apply Z.leb_le in Hlo. apply Z.ltb_lt in Hhi.
  rewrite (Z.mod_small p) by lia.
  destruct (p <? 2 ^ 63) eqn:Hc.
  - apply Z.ltb_lt in Hc. rewrite Z.mod_small by lia.
    split; [reflexivity |].
    apply andb_true_intro. split; [apply Z.leb_le | apply Z.ltb_lt]; lia.
  - apply Z.ltb_ge in Hc. split.
    + symmetry. apply Z.mod_unique with (q := -1); lia.
    + apply andb_true_intro. split; [apply Z.leb_le | apply Z.ltb_lt]; lia.
Qed.

Lemma jlong_of_handle_null (p : WetextProcessorHandle) :
  handle_in_range p = true -> (handle_to_jlong p = 0 <-> p = 0).
Proof.
  intros Hr. destruct (jlong_of_handle_of_jlong p Hr) as [Hback _]. split.
  - intros Hz. rewrite <- Hback, Hz. reflexivity.
  - intros ->. reflexivity.
Qed.

(** Create, when the engine answers. *)
Lemma create_binding_run (tp vp : string) (w : World E)
    (hd : WetextProcessorHandle) (e1 : E) :
  wetext_create_processor tp vp (engine w) = Some (hd, e1) ->
  exists evs,
    Java_com_wetext_WetextProcessor_nativeCreateProcessor (Some tp) (Some vp) w
    = Some (handle_to_jlong hd, mkWorld (jvm_utf w) e1 (trace w ++ evs))
    /\ native_calls evs = [CallCreateProcessor tp vp].
Proof.
  intros Hc. rewrite create_binding_eq, Hc. cbv zeta.
  eexists. split; reflexivity.
Qed.

Lemma text_calls (op : TextOp) (p : WetextProcessorHandle) (s : string)
    (b : utf_chars) (r : c_result) :
  native_calls
    ([EvGetStringUTFChars s b;
      EvNative (text_call op p s);
      EvReleaseStringUTFChars s b;
      EvNewStringUTF (or_empty r)] ++
       match r with
       | Some x => [EvNative (CallFreeString x)]
       | None => []
       end)
  = text_call op p s
      :: match r with Some x => [CallFreeString x] | None => [] end.
Proof. destruct r; reflexivity. Qed.

(** X1. What create returns is the engine's handle: when the engine answers
    a pointer [hd], the binding returns a 64-bit [jlong] that casts back to
    [hd], and that is 0 exactly when [hd] is the null pointer; the engine
    is left as the native create left it and no UTF buffer stays live. *)
Theorem create_returns_engine_handle (tp vp : string) (w : World E)
    (hd : WetextProcessorHandle) (e1 : E) :
  wetext_create_processor tp vp (engine w) = Some (hd, e1) ->
  handle_in_range hd = true ->
  exists j w',
    Java_com_wetext_WetextProcessor_nativeCreateProcessor (Some tp) (Some vp) w
    = Some (j, w')
    /\ engine w' = e1
    /\ jvm_utf w' = jvm_utf w
    /\ jlong_in_range j = true
    /\ jlong_to_handle j = hd
    /\ (j = 0 <-> hd = nullptr).
Proof.
  intros Hc Hr.
  destruct (create_binding_run tp vp w hd e1 Hc) as [evs [Hrun _]].
  destruct (jlong_of_handle_of_jlong hd Hr) as [Hback Hrange].
  do 2 eexists. split; [exact Hrun |].
  repeat split; try assumption.
  - apply (jlong_of_handle_null hd Hr).
  - apply (jlong_of_handle_null hd Hr).
Qed.

(** X2. A handle returned by create and passed back to normalize, tag or
    verbalize reaches the engine as the pointer the engine issued: the two
    operations in sequence make the native create call, then the one text
    call on that pointer with the input bytes, then the free of its result
    when there is one; the binding returns the engine's string (empty for a
    null result) and no UTF buffer stays live. *)
Theorem created_handle_reaches_engine (op : TextOp) (tp vp s : string)
    (w : World E) (hd : WetextProcessorHandle) (r : c_result)
    (e1 e2 e3 : E) :
  wetext_create_processor tp vp (engine w) = Some (hd, e1) ->
  handle_in_range hd = true ->
  hd ≠ 0 ->
  text_api op hd s e1 = Some (r, e2) ->
  free_result r e2 = Some e3 ->
  exists w',
    (j <- Java_com_wetext_WetextProcessor_nativeCreateProcessor
            (Some tp) (Some vp) ;;
     text_binding op j (Some s))%jni w
    = Some (Some (or_empty r), w')
    /\ engine w' = e3
    /\ jvm_utf w' = jvm_utf w
    /\ native_calls (trace w') =
         native_calls (trace w) ++
           [CallCreateProcessor tp vp; text_call op hd s] ++
           match r with Some x => [CallFreeString x] | None => [] end.
Proof.
  intros Hc Hr Hnz Hcall Hfree.
  destruct (create_binding_run tp vp w hd e1 Hc) as [evs [Hrun Hevs]].
  destruct (jlong_of_handle_of_jlong hd Hr) as [Hback _].
  assert (Hj : handle_to_jlong hd ≠ 0)
    by (intros Hz; apply Hnz, (jlong_of_handle_null hd Hr), Hz).
  unfold jbind. rewrite Hrun.
  rewrite (text_binding_run op (handle_to_jlong hd) s _ r e2 e3 Hj);
    cbn [engine jvm_utf trace]; rewrite ?Hback; try assumption.
  eexists. split; [reflexivity |]. cbn [engine jvm_utf trace].
  split; [reflexivity |]. split; [reflexivity |].
  rewrite (native_calls_app (trace w ++ evs)), (native_calls_app (trace w) evs).
  rewrite Hevs, text_calls, <- app_assoc. reflexivity.
Qed.

(** X3. Destroy on what create returned: when the engine issued a pointer,
    destroy hands that same pointer to the native destroy function; when the
    create failed with a null pointer, destroy makes no call at all and the
    engine stays as create left it. *)
Theorem destroy_after_create (tp vp : string) (w : World E)
    (hd : WetextProcessorHandle) (e1 e2 : E) :
  wetext_create_processor tp vp (engine w) = Some (hd, e1) ->
  handle_in_range hd = true ->
  (if hd =? 0 then Some e1 else wetext_destroy_processor hd e1) = Some e2 ->
  exists w',
    (j <- Java_com_wetext_WetextProcessor_nativeCreateProcessor
            (Some tp) (Some vp) ;;
     Java_com_wetext_WetextProcessor_nativeDestroyProcessor j)%jni w
    = Some (tt, w')
    /\ engine w' = e2
    /\ jvm_utf w' = jvm_utf w
    /\ native_calls (trace w') =
         native_calls (trace w) ++
           CallCreateProcessor tp vp
             :: (if hd =? 0 then [] else [CallDestroyProcessor hd]).
Proof.
  intros Hc Hr Hd.
  destruct (create_binding_run tp vp w hd e1 Hc) as [evs [Hrun Hevs]].
  destruct (jlong_of_handle_of_jlong hd Hr) as [Hback _].
  unfold jbind. rewrite Hrun.
  unfold Java_com_wetext_WetextProcessor_nativeDestroyProcessor.
  destruct (hd =? 0) eqn:Hz.
  - apply Z.eqb_eq in Hz. subst hd. injection Hd as <-.
    change (handle_to_jlong 0 =? 0) with true. cbn [negb]. unfold jret.
    eexists. split; [reflexivity |]. cbn [engine jvm_utf trace].
    repeat split. rewrite native_calls_app, Hevs. reflexivity.
  - apply Z.eqb_neq in Hz.
    assert (Hj : (handle_to_jlong hd =? 0) = false)
      by (apply Z.eqb_neq; intros Hj; apply Hz,
            (jlong_of_handle_null hd Hr), Hj).
    rewrite Hj. cbn [negb].
    unfold call_destroy_processor, native_, native. cbn [engine jvm_utf trace].
    rewrite Hback, Hd.
    eexists. split; [reflexivity |]. cbn [engine jvm_utf trace].
    repeat split.
    rewrite (native_calls_app (trace w ++ evs)), (native_calls_app (trace w) evs).
    rewrite Hevs, <- app_assoc. reflexivity.
Qed.

(** X4. On a non-null handle and a non-null input, normalize, tag and
    verbalize fail only with the engine: the run dies exactly when the
    native text call dies or the free of its result dies.  The binding has
    no failure of its own: it never reads or releases a buffer that is not
    live. *)
Theorem text_op_fails_only_with_engine (op : TextOp) (h : jlong)
    (s : string) (w : World E) :
  h ≠ 0 ->
  (text_binding op h (Some s) w = None
   <-> text_api op (jlong_to_handle h) s (engine w) = None
       \/ exists r e1,
            text_api op (jlong_to_handle h) s (engine w) = Some (r, e1)
            /\ free_result r e1 = None).
Proof.
  intros Hh. rewrite text_binding_eq by exact Hh.
  destruct (text_api op (jlong_to_handle h) s (engine w)) as [[r e1]|].
  - destruct (free_result r e1) as [e2|] eqn:Hfree.
    + split; [discriminate |].
      intros [Hnone | [r' [e1' [Heq Hnone]]]]; [discriminate |].
      injection Heq as <- <-. congruence.
    + split; [| reflexivity].
      intros _. right. exists r, e1. split; [reflexivity | exact Hfree].
  - split; [intros _; left; reflexivity | reflexivity].
Qed.

(** X5. On two non-null path strings create fails only with the engine: the
    run dies exactly when the native create call dies. *)
Theorem create_fails_only_with_engine (tp vp : string) (w : World E) :
  Java_com_wetext_WetextProcessor_nativeCreateProcessor (Some tp) (Some vp) w
  = None
  <-> wetext_create_processor tp vp (engine w) = None.
Proof.
  rewrite create_binding_eq.
  destruct (wetext_create_processor tp vp (engine w)) as [[hd e1]|].
  - cbv zeta. split; discriminate.
  - split; reflexivity.
Qed.

(** X6. Each text function calls its own engine function, once: on every
    returning run of normalize, tag or verbalize on a non-null handle, the
    calls made into the engine are the matching native function on the cast
    handle and the input bytes, followed by the free of its result when the
    result is non-null; the string returned is that result, or the empty
    string for a null result. *)
Theorem text_op_calls_its_engine_function (op : TextOp) (h : jlong)
    (s : string) (w w' : World E) (res : jstring) :
  h ≠ 0 ->
  text_binding op h (Some s) w = Some (res, w') ->
  exists r e1,
    text_api op (jlong_to_handle h) s (engine w) = Some (r, e1)
    /\ res = Some (or_empty r)
    /\ free_result r e1 = Some (engine w')
    /\ native_calls (trace w') =
         native_calls (trace w) ++
           text_call op (jlong_to_handle h) s
             :: match r with Some x => [CallFreeString x] | None => [] end.
Proof.
  intros Hh. rewrite text_binding_eq by exact Hh.
  destruct (text_api op (jlong_to_handle h) s (engine w)) as [[r e1]|];
    [| discriminate].
  destruct (free_result r e1) as [e2|] eqn:Hfree; [| discriminate].
  intros Hrun. injection Hrun as <- <-. cbn [engine trace].
  exists r, e1.
  split; [reflexivity |]. split; [reflexivity |]. split; [exact Hfree |].
  rewrite native_calls_app. f_equal. destruct r; reflexivity.
Qed.

(** X7. The binding never hands the engine a null handle: on every
    returning run of an operation whose [jlong] is a 64-bit value, no call
    made into the engine during the run carries the null pointer. *)
Theorem no_null_handle_reaches_engine (o : Operation) (w w' : World E) :
  operation_in_range o = true ->
  run_operation o w = Some w' ->
  exists evs,
    trace w' = trace w ++ evs
    /\ forall c, In c (native_calls evs) -> call_handle c ≠ Some nullptr.
Proof.
  intros Hrange.
  destruct o as [tp vp | h | op h input]; unfold run_operation, world_after.
  - destruct tp as [t|]; [| discriminate].
    destruct vp as [v|]; [| discriminate].
    rewrite create_binding_eq.
    destruct (wetext_create_processor t v (engine w)) as [[hd e1]|];
      [| discriminate].
    cbv zeta. intros Hrun. injection Hrun as <-. cbn [trace].
    eexists. split; [reflexivity |].
    intros c [<- | []]. discriminate.
  - cbn [operation_in_range] in Hrange.
    unfold Java_com_wetext_WetextProcessor_nativeDestroyProcessor.
    destruct (h =? 0) eqn:Hz; simpl.
    + intros Hrun. injection Hrun as <-.
      exists []. split; [symmetry; apply app_nil_r | intros c []].
    + unfold call_destroy_processor, native_, native.
      destruct (wetext_destroy_processor (jlong_to_handle h) (engine w));
        [| discriminate].
      intros Hrun. injection Hrun as <-. cbn [trace].
      eexists. split; [reflexivity |].
      intros c [<- | []]. cbn [call_handle]. intros Heq.
      injection Heq as Heq. apply Z.eqb_neq in Hz. apply Hz.
      apply (jlong_to_handle_null h Hrange), Heq.
  - cbn [operation_in_range] in Hrange.
    destruct (Z.eq_dec h 0) as [-> | Hh].
    + rewrite text_binding_null. intros Hrun. injection Hrun as <-.
      cbn [trace]. eexists. split; [reflexivity | intros c []].
    + destruct input as [s|].
      2:{ destruct op; simpl;
          unfold Java_com_wetext_WetextProcessor_nativeNormalize,
            Java_com_wetext_WetextProcessor_nativeTag,
            Java_com_wetext_WetextProcessor_nativeVerbalize;
          rewrite (proj2 (Z.eqb_neq h 0) Hh); discriminate. }
      rewrite text_binding_eq by exact Hh.
      destruct (text_api op (jlong_to_handle h) s (engine w))
        as [[r e1]|]; [| discriminate].
      destruct (free_result r e1) as [e2|]; [| discriminate].
      intros Hrun. injection Hrun as <-. cbn [trace].
      eexists. split; [reflexivity |].
      assert (Hnn : jlong_to_handle h ≠ nullptr)
        by (intros Heq; apply Hh, (jlong_to_handle_null h Hrange), Heq).
      intros c Hin.
      assert (Hc : c = text_call op (jlong_to_handle h) s
                   \/ exists x, c = CallFreeString x).
      { destruct r as [x|]; simpl in Hin.
        - destruct Hin as [<- | [<- | []]]; eauto.
        - destruct Hin as [<- | []]; eauto. }
      destruct Hc as [-> | [x ->]]; [| discriminate].
      destruct op; cbn [text_call call_handle]; congruence.
Qed.

End BindingLifecycle.

(** * The theorems at work on the date installation and on the null engine *)

Lemma normalize_is_verbalize_of_tag_witness :
  (exists w',
      Java_com_wetext_WetextProcessor_nativeNormalize 4096
        (Some "Meeting on 2024-03-15 confirmed") Core.date_world
      = Some (Some (Core.verbalize (Core.verbalizer_grammar Core.date_session)
                      (Core.tag (Core.tagger_grammar Core.date_session)
                         "Meeting on 2024-03-15 confirmed")), w')
      /\ engine w' = engine Core.date_world)
  /\ exists tagged w1 w2,
       Java_com_wetext_WetextProcessor_nativeTag 4096
         (Some "Meeting on 2024-03-15 confirmed") Core.date_world
       = Some (Some tagged, w1)
       /\ Java_com_wetext_WetextProcessor_nativeVerbalize 4096 (Some tagged) w1
          = Some (Some (Core.verbalize (Core.verbalizer_grammar Core.date_session)
                          (Core.tag (Core.tagger_grammar Core.date_session)
                             "Meeting on 2024-03-15 confirmed")), w2)
       /\ engine w2 = engine Core.date_world.
Proof.
  pose proof (normalize_is_verbalize_of_tag 4096
                "Meeting on 2024-03-15 confirmed"
                Core.date_world Core.date_session) as Hlaw.
  split.
  - apply Hlaw; [lia | reflexivity].
  - apply Hlaw; [lia | reflexivity | reflexivity].
Defined.

Lemma create_failure_gives_null_witness :
  exists w' w'',
    Java_com_wetext_WetextProcessor_nativeCreateProcessor
      (Some "missing.tagger") (Some "date.verbalizer") Core.date_world
    = Some (0, w')
    /\ engine w' = engine Core.date_world
    /\ Java_com_wetext_WetextProcessor_nativeNormalize 0 (Some "anything") w'
       = Some (Some "", w'').
Proof.
  apply (proj2 (create_failure_gives_null "missing.tagger" "date.verbalizer"
                  "anything" Core.date_world)).
  left. exists Core.NotFound. reflexivity.
Defined.

Lemma normalize_deterministic_witness :
  exists out w1' w2' w1'',
    Java_com_wetext_WetextProcessor_nativeNormalize 4096
      (Some "on 2024-03-15") Core.date_world = Some (out, w1')
    /\ Java_com_wetext_WetextProcessor_nativeNormalize 4096
         (Some "on 2024-03-15") Core.busy_world = Some (out, w2')
    /\ Java_com_wetext_WetextProcessor_nativeNormalize 4096
         (Some "on 2024-03-15") w1' = Some (out, w1'').
Proof.
  apply (normalize_deterministic 4096 "on 2024-03-15"
           Core.date_world Core.busy_world).
  reflexivity.
Defined.

Lemma normalize_unmatched_is_identity_witness :
  exists w',
    Java_com_wetext_WetextProcessor_nativeNormalize 4096
      (Some "call me at 12-30") Core.date_world
    = Some (Some "call me at 12-30", w')
    /\ engine w' = engine Core.date_world.
Proof.
  apply (normalize_unmatched_is_identity 4096 "call me at 12-30"
           Core.date_world Core.date_session);
    [lia | reflexivity | reflexivity].
Defined.

Lemma destroy_null_is_noop_witness :
  Java_com_wetext_WetextProcessor_nativeDestroyProcessor 0 NullEngine.null_world
  = Some (tt, NullEngine.null_world)
  /\ native_calls [EvNative (CallDestroyProcessor 5)] =
       (native_calls (trace NullEngine.null_world) ++
          (if 5 =? 0 then [] else [CallDestroyProcessor (jlong_to_handle 5)]))%list.
Proof.
  split.
  - apply (proj1 (destroy_null_is_noop NullEngine.null_world)).
  - apply (proj2 (destroy_null_is_noop NullEngine.null_world) 5
             (mkWorld ∅ tt [EvNative (CallDestroyProcessor 5)])).
    reflexivity.
Defined.

Lemma result_freed_after_copy_witness :
  exists (w' : World Core.CoreState) (pre : list Event),
    text_binding OpNormalize 4096 (Some "on 2024-03-15") Core.date_world
    = Some (Some "on 03/15/2024", w')
    /\ trace w' =
         (trace Core.date_world ++ pre ++
            [EvNewStringUTF "on 03/15/2024";
             EvNative (CallFreeString "on 03/15/2024")])%list
    /\ freed pre = []
    /\ freed (trace w') = (freed (trace Core.date_world) ++ ["on 03/15/2024"])%list.
Proof.
  apply (result_freed_after_copy OpNormalize 4096 "on 2024-03-15"
           Core.date_world (Some "on 03/15/2024")
           (snd (Core.hand_out "on 03/15/2024" Core.date_core))
           Core.date_core);
    [lia | reflexivity | reflexivity].
Defined.

Lemma null_result_returns_empty_witness :
  text_binding OpTag 7 (Some "abc") NullEngine.null_world =
    Some (Some "",
          mkWorld (jvm_utf NullEngine.null_world) tt
            (trace NullEngine.null_world ++
               [EvGetStringUTFChars "abc"
                  (fresh (dom (jvm_utf NullEngine.null_world)));
                EvNative (text_call OpTag (jlong_to_handle 7) "abc");
                EvReleaseStringUTFChars "abc"
                  (fresh (dom (jvm_utf NullEngine.null_world)));
                EvNewStringUTF ""])).
Proof.
  apply (null_result_returns_empty OpTag 7 "abc" NullEngine.null_world tt);
    [lia | reflexivity].
Defined.

Lemma utf_buffers_paired_witness :
  jvm_utf NullEngine.null_world_created = jvm_utf NullEngine.null_world
  /\ exists evs,
       trace NullEngine.null_world_created
       = (trace NullEngine.null_world ++ evs)%list
       /\ utf_paired evs = true
       /\ exists t v b1 b2,
            Some "t" = Some t /\ Some "v" = Some v
            /\ evs = [EvGetStringUTFChars t b1;
                      EvGetStringUTFChars v b2;
                      EvNative (CallCreateProcessor t v);
                      EvReleaseStringUTFChars t b1;
                      EvReleaseStringUTFChars v b2].
Proof.
  apply (utf_buffers_paired (CreateProcessor (Some "t") (Some "v"))
           NullEngine.null_world NullEngine.null_world_created).
  vm_compute. reflexivity.
Defined.

(** * The lifecycle theorems at work on the echo and null engines *)

Lemma create_returns_engine_handle_witness :
  exists j w',
    Java_com_wetext_WetextProcessor_nativeCreateProcessor (Some "t") (Some "v")
      EchoEngine.echo_world = Some (j, w')
    /\ engine w' = O
    /\ jvm_utf w' = jvm_utf EchoEngine.echo_world
    /\ jlong_in_range j = true
    /\ jlong_to_handle j = EchoEngine.high_handle
    /\ (j = 0 <-> EchoEngine.high_handle = nullptr).
Proof.
  apply (create_returns_engine_handle "t" "v" EchoEngine.echo_world
           EchoEngine.high_handle O); reflexivity.
Defined.

Lemma created_handle_reaches_engine_witness :
  exists w',
    (j <- Java_com_wetext_WetextProcessor_nativeCreateProcessor
            (Some "t") (Some "v") ;;
     text_binding OpNormalize j (Some "abc"))%jni EchoEngine.echo_world
    = Some (Some "abc", w')
    /\ engine w' = O
    /\ jvm_utf w' = jvm_utf EchoEngine.echo_world
    /\ native_calls (trace w') =
         (native_calls (trace EchoEngine.echo_world) ++
            [CallCreateProcessor "t" "v";
             text_call OpNormalize EchoEngine.high_handle "abc"] ++
            [CallFreeString "abc"])%list.
Proof.
  apply (created_handle_reaches_engine OpNormalize "t" "v" "abc"
           EchoEngine.echo_world EchoEngine.high_handle (Some "abc")
           O (S O) O);
    [reflexivity | reflexivity | vm_compute; lia | reflexivity | reflexivity].
Defined.

Lemma destroy_after_create_witness :
  exists w',
    (j <- Java_com_wetext_WetextProcessor_nativeCreateProcessor
            (Some "t") (Some "v") ;;
     Java_com_wetext_WetextProcessor_nativeDestroyProcessor j)%jni
      NullEngine.null_world
    = Some (tt, w')
    /\ engine w' = tt
    /\ jvm_utf w' = jvm_utf NullEngine.null_world
    /\ native_calls (trace w') =
         (native_calls (trace NullEngine.null_world) ++
            CallCreateProcessor "t" "v"
              :: (if nullptr =? 0 then [] else [CallDestroyProcessor nullptr]))%list.
Proof.
  apply (destroy_after_create "t" "v" NullEngine.null_world nullptr tt tt);
    reflexivity.
Defined.

Lemma text_op_fails_only_with_engine_witness :
  text_binding OpVerbalize 5 (Some "abc") EchoEngine.echo_world = None
  <-> text_api OpVerbalize (jlong_to_handle 5) "abc"
        (engine EchoEngine.echo_world) = None
      \/ exists r e1,
           text_api OpVerbalize (jlong_to_handle 5) "abc"
             (engine EchoEngine.echo_world) = Some (r, e1)
           /\ free_result r e1 = None.
Proof.
  apply (text_op_fails_only_with_engine OpVerbalize 5 "abc"
           EchoEngine.echo_world).
  lia.
Defined.

Lemma text_op_calls_its_engine_function_witness :
  exists r e1,
    text_api OpNormalize (jlong_to_handle (-8)) "abc"
      (engine EchoEngine.echo_world) = Some (r, e1)
    /\ Some "abc" = Some (or_empty r)
    /\ free_result r e1 = Some (engine EchoEngine.echo_world_normalized)
    /\ native_calls (trace EchoEngine.echo_world_normalized) =
         (native_calls (trace EchoEngine.echo_world) ++
            text_call OpNormalize (jlong_to_handle (-8)) "abc"
              :: match r with Some x => [CallFreeString x] | None => [] end)%list.
Proof.
  apply (text_op_calls_its_engine_function OpNormalize (-8) "abc"
           EchoEngine.echo_world EchoEngine.echo_world_normalized
           (Some "abc"));
    [lia | vm_compute; reflexivity].
Defined.

Lemma no_null_handle_reaches_engine_witness :
  exists evs,
    trace EchoEngine.echo_world_normalized
    = (trace EchoEngine.echo_world ++ evs)%list
    /\ forall c, In c (native_calls evs) -> call_handle c ≠ Some nullptr.
Proof.
  apply (no_null_handle_reaches_engine
           (TextOperation OpNormalize (-8) (Some "abc"))
           EchoEngine.echo_world EchoEngine.echo_world_normalized);
    [reflexivity | vm_compute; reflexivity].
Defined.
